(** * Game-day notifications: the formatter and the Lambda handler

    A shallow embedding of [src/lambda_function.py]: the values that
    [json.loads] hands to the program, the two functions of the file
    ([format_game_data] and [lambda_handler]) and the properties of the
    specification that concern them. *)

From Stdlib Require Import ZArith List String Ascii Bool Lia.
From Stdlib Require Import Numbers.DecimalString.
Import ListNotations.

Local Open Scope list_scope.
Local Open Scope string_scope.

(** ** The Python values the program handles *)

Module Py.

(** A float is only ever printed or tested for truth by the program, so
    it is carried as what these two operations observe of it. *)
Record pyfloat : Type := MkFloat {
  float_repr : string;
  float_is_zero : bool
}.

#[local] Set Warnings "-register-all".

(** The result of [json.loads].  A [str] is a [string] with one [ascii]
    per character (code points below 256); a [dict] keeps its items in
    insertion order, and a lookup takes the first item of a key. *)
Inductive value : Type :=
| VNone
| VBool (b : bool)
| VInt (n : Z)
| VFloat (f : pyfloat)
| VStr (s : string)
| VList (items : list value)
| VDict (items : list (string * value)).

(** The exceptions that the program can meet outside its [try] blocks. *)
Inductive exn : Type :=
| KeyError (key : string)
| TypeError
| AttributeError
| OtherError (description : string).

Inductive result (A : Type) : Type :=
| Ok (a : A)
| Raise (e : exn).
Arguments Ok {A} a.
Arguments Raise {A} e.

Definition bind {A B : Type} (r : result A) (k : A -> result B) : result B :=
  match r with
  | Ok a => k a
  | Raise e => Raise e
  end.

Notation "x <- r ;; k" := (bind r (fun x => k))
  (at level 61, r at next level, right associativity).

(** A list comprehension whose element expression may raise: the items
    are evaluated from left to right and the first exception ends it. *)
Fixpoint comprehension {A B : Type} (f : A -> result B) (l : list A)
  : result (list B) :=
  match l with
  | [] => Ok []
  | a :: l' =>
      b <- f a ;;
      bs <- comprehension f l' ;;
      Ok (b :: bs)
  end.

Definition LF : string := String (ascii_of_nat 10) "".

(** [sep.join(parts)] *)
Fixpoint join (sep : string) (parts : list string) : string :=
  match parts with
  | [] => ""
  | [p] => p
  | p :: rest => p ++ sep ++ join sep rest
  end.

(** [str(n)] for an [int]. *)
Definition str_int (n : Z) : string := NilZero.string_of_int (Z.to_int n).

Definition hex_digit (n : nat) : ascii :=
  match n with
  | 0 => "0" | 1 => "1" | 2 => "2" | 3 => "3" | 4 => "4" | 5 => "5"
  | 6 => "6" | 7 => "7" | 8 => "8" | 9 => "9" | 10 => "a" | 11 => "b"
  | 12 => "c" | 13 => "d" | 14 => "e" | _ => "f"
  end%char.

Definition hex_escape (c : ascii) : string :=
  let n := nat_of_ascii c in
  String "\" (String "x" (String (hex_digit (n / 16))
    (String (hex_digit (n mod 16)) ""))).

Fixpoint has_char (c : ascii) (s : string) : bool :=
  match s with
  | EmptyString => false
  | String c' s' => Ascii.eqb c c' || has_char c s'
  end.

Definition SQ : ascii := "'"%char.
Definition DQ : ascii := ascii_of_nat 34.

(** The quote that [repr] puts around a [str]: a double quote when the
    text holds a single quote and no double quote, a single quote
    otherwise. *)
Definition repr_quote (s : string) : ascii :=
  if has_char SQ s && negb (has_char DQ s) then DQ else SQ.

Definition repr_char (quote c : ascii) : string :=
  let n := nat_of_ascii c in
  if Ascii.eqb c quote || Ascii.eqb c "\"%char then String "\" (String c "")
  else if Nat.eqb n 9 then "\t"
  else if Nat.eqb n 10 then "\n"
  else if Nat.eqb n 13 then "\r"
  else if Nat.ltb n 32 || Nat.eqb n 127 then hex_escape c
  else if Nat.ltb n 127 then String c ""
  else if Nat.leb n 160 || Nat.eqb n 173 then hex_escape c
  else String c "".

Fixpoint repr_chars (quote : ascii) (s : string) : string :=
  match s with
  | EmptyString => EmptyString
  | String c s' => repr_char quote c ++ repr_chars quote s'
  end.

(** [repr(s)] for a [str]. *)
Definition repr_str (s : string) : string :=
  let q := repr_quote s in
  String q (repr_chars q s) ++ String q "".

(** [repr(v)] *)
Fixpoint repr (v : value) : string :=
  match v with
  | VNone => "None"
  | VBool true => "True"
  | VBool false => "False"
  | VInt n => str_int n
  | VFloat f => float_repr f
  | VStr s => repr_str s
  | VList items => "[" ++ join ", " (map repr items) ++ "]"
  | VDict items =>
      "{" ++ join ", "
               (map (fun kv : string * value => let (k, v') := kv in
                               repr_str k ++ ": " ++ repr v') items)
          ++ "}"
  end.

(** [str(v)], which is also what an f-string field [{v}] expands to. *)
Definition str (v : value) : string :=
  match v with
  | VStr s => s
  | _ => repr v
  end.

(** [bool(v)] *)
Definition truthy (v : value) : bool :=
  match v with
  | VNone => false
  | VBool b => b
  | VInt n => negb (Z.eqb n 0)
  | VFloat f => negb (float_is_zero f)
  | VStr s => negb (String.eqb s "")
  | VList items => match items with [] => false | _ => true end
  | VDict items => match items with [] => false | _ => true end
  end.

(** [v == "literal"] *)
Definition eq_str (v : value) (lit : string) : bool :=
  match v with
  | VStr s => String.eqb s lit
  | _ => false
  end.

Fixpoint lookup (key : string) (items : list (string * value)) : option value :=
  match items with
  | [] => None
  | (k, v) :: rest => if String.eqb k key then Some v else lookup key rest
  end.

(** [v.get(key, default)]: only a [dict] has the method. *)
Definition get (v : value) (key : string) (default : value) : result value :=
  match v with
  | VDict items =>
      match lookup key items with
      | Some x => Ok x
      | None => Ok default
      end
  | _ => Raise AttributeError
  end.

(** [v[key]] with a [str] key. *)
Definition subscript (v : value) (key : string) : result value :=
  match v with
  | VDict items =>
      match lookup key items with
      | Some x => Ok x
      | None => Raise (KeyError key)
      end
  | _ => Raise TypeError
  end.

Fixpoint chars (s : string) : list value :=
  match s with
  | EmptyString => []
  | String c s' => VStr (String c "") :: chars s'
  end.

(** [for x in v]: the items of a list, the characters of a [str], the
    keys of a [dict]; nothing else can be iterated. *)
Definition iter (v : value) : result (list value) :=
  match v with
  | VList items => Ok items
  | VStr s => Ok (chars s)
  | VDict items => Ok (map (fun kv => VStr (fst kv)) items)
  | _ => Raise TypeError
  end.

End Py.
Import Py.

(** ** [format_game_data] *)

(** The element expression of the comprehension over the quarters:
    [f"Q{q['Number']}: {q.get('AwayScore', 'N/A')}-{q.get('HomeScore', 'N/A')}"] *)
Definition quarter_entry (q : value) : result string :=
  number <- subscript q "Number" ;;
  away <- get q "AwayScore" (VStr "N/A") ;;
  home <- get q "HomeScore" (VStr "N/A") ;;
  Ok ("Q" ++ str number ++ ": " ++ str away ++ "-" ++ str home).

Definition format_game_data (game : value) : result string :=
  status <- get game "Status" (VStr "Unknown") ;;
  away_team <- get game "AwayTeam" (VStr "Unknown") ;;
  home_team <- get game "HomeTeam" (VStr "Unknown") ;;
  away_score <- get game "AwayTeamScore" (VStr "N/A") ;;
  home_score <- get game "HomeTeamScore" (VStr "N/A") ;;
  let final_score := str away_score ++ "-" ++ str home_score in
  start_time <- get game "DateTime" (VStr "Unknown") ;;
  channel <- get game "Channel" (VStr "Unknown") ;;
  quarters <- get game "Quarters" (VList []) ;;
  qs <- iter quarters ;;
  entries <- comprehension quarter_entry qs ;;
  let quarter_scores := join ", " entries in
  if eq_str status "Final" then
    Ok ("Game Status: " ++ str status ++ LF ++
        str away_team ++ " vs " ++ str home_team ++ LF ++
        "Final Score: " ++ final_score ++ LF ++
        "Start Time: " ++ str start_time ++ LF ++
        "Channel: " ++ str channel ++ LF ++
        "Quarter Scores: " ++ quarter_scores ++ LF)
  else if eq_str status "InProgress" then
    last_play <- get game "LastPlay" (VStr "N/A") ;;
    Ok ("Game Status: " ++ str status ++ LF ++
        str away_team ++ " vs " ++ str home_team ++ LF ++
        "Current Score: " ++ final_score ++ LF ++
        "Last Play: " ++ str last_play ++ LF ++
        "Channel: " ++ str channel ++ LF)
  else if eq_str status "Scheduled" then
    Ok ("Game Status: " ++ str status ++ LF ++
        str away_team ++ " vs " ++ str home_team ++ LF ++
        "Start Time: " ++ str start_time ++ LF ++
        "Channel: " ++ str channel ++ LF)
  else
    Ok ("Game Status: " ++ str status ++ LF ++
        str away_team ++ " vs " ++ str home_team ++ LF ++
        "Details are unavailable at the moment." ++ LF).

(** ** [lambda_handler] *)

(** The dictionary that the handler returns. *)
Record response : Type := Response {
  statusCode : Z;
  body : string
}.

(** What a run does to the outside, in program order: the lines it
    prints, the client it creates and the two network calls. *)
Inductive event : Type :=
| Log (line : string)
| LogJson (data : value)
| Boto3Client (service : string)
| UrlOpen (url : string)
| SnsPublish (TopicArn Message Subject : string).

(** How the body of the first [try] ends: the four [except] clauses in
    their order, or the decoded [data]. *)
Inductive fetch_result : Type :=
| Fetched (data : value)
| HTTPError (code : Z) (reason : string)
| URLError (reason : string)
| JSONDecodeError
| FetchException (description : string).

(** How [sns_client.publish] ends.  A [ClientError] carries the parsed
    error response, [e.response], which the handler takes apart for its
    log line. *)
Inductive publish_result : Type :=
| Published
| ClientError (response : value)
| PublishException (description : string).

(** The surroundings of one invocation: the process environment, the
    clock (whole seconds since the epoch, UTC), and the answers of
    boto3, of the game API and of the notification topic. *)
Record world : Type := World {
  environ : string -> option string;
  utc_now : Z;
  boto3_client : string -> option exn;
  urlopen_json : string -> fetch_result;
  sns_publish : string -> string -> string -> publish_result
}.

(** [not v] for the result of [os.getenv]. *)
Definition env_falsy (v : option string) : bool :=
  match v with
  | None => true
  | Some s => String.eqb s ""
  end.

(** [{v}] in an f-string for the result of [os.getenv]. *)
Definition env_str (v : option string) : string :=
  match v with
  | None => "None"
  | Some s => s
  end.

Definition pad2 (n : Z) : string :=
  if (n <? 10)%Z then "0" ++ str_int n else str_int n.

(** The calendar date of a day count from 1970-01-01. *)
Definition civil_from_days (days : Z) : Z * Z * Z :=
  let z := (days + 719468)%Z in
  let era := (z / 146097)%Z in
  let doe := (z - era * 146097)%Z in
  let yoe := ((doe - doe / 1460 + doe / 36524 - doe / 146096) / 365)%Z in
  let doy := (doe - (365 * yoe + yoe / 4 - yoe / 100))%Z in
  let mp := ((5 * doy + 2) / 153)%Z in
  let d := (doy - (153 * mp + 2) / 5 + 1)%Z in
  let m := (if mp <? 10 then mp + 3 else mp - 9)%Z in
  let y := (yoe + era * 400 + (if m <=? 2 then 1 else 0))%Z in
  (y, m, d).

(** [t.strftime("%Y-%m-%d")] for an instant given in seconds. *)
Definition strftime_ymd (seconds : Z) : string :=
  let '(y, m, d) := civil_from_days (seconds / 86400) in
  str_int y ++ "-" ++ pad2 m ++ "-" ++ pad2 d.

(** [(utc_now - timedelta(hours=6)).strftime("%Y-%m-%d")] *)
Definition today_date (w : world) : string :=
  strftime_ymd (utc_now w - 6 * 3600).

Definition api_url (w : world) : string :=
  "https://api.sportsdata.io/v3/nba/scores/json/GamesByDate/"
    ++ today_date w ++ "?key=" ++ env_str (environ w "NBA_API_KEY").

Definition separator : string := LF ++ "---" ++ LF.

(** [e.response['Error']['Message']] *)
Definition error_message (response : value) : result value :=
  error <- subscript response "Error" ;;
  subscript error "Message".

(** [[format_game_data(game) for game in data]] *)
Definition format_all (data : value) : result (list string) :=
  games <- iter data ;;
  comprehension format_game_data games.

(** The handler: the events of the run and either the returned
    dictionary or the exception that leaves the function. *)
Definition lambda_handler (w : world) : list event * result response :=
  let api_key := environ w "NBA_API_KEY" in
  let sns_topic_arn := environ w "SNS_TOPIC_ARN" in
  if env_falsy api_key || env_falsy sns_topic_arn then
    ([Log "Error: Missing required environment variables."],
     Ok (Response 500 "Missing environment variables"))
  else
    match boto3_client w "sns" with
    | Some e => ([Boto3Client "sns"], Raise e)
    | None =>
      let t0 := [Boto3Client "sns";
                 Log ("Fetching games for date: " ++ today_date w);
                 UrlOpen (api_url w)] in
      match urlopen_json w (api_url w) with
      | HTTPError code reason =>
          (t0 ++ [Log ("HTTP Error: " ++ str_int code ++ " - " ++ reason)],
           Ok (Response code ("HTTP Error: " ++ reason)))%list
      | URLError reason =>
          (t0 ++ [Log ("URL Error: " ++ reason)],
           Ok (Response 500 ("URL Error: " ++ reason)))%list
      | JSONDecodeError =>
          (t0 ++ [Log "Error decoding JSON response."],
           Ok (Response 500 "Error decoding JSON response"))%list
      | FetchException e =>
          (t0 ++ [Log ("Unexpected error: " ++ e)],
           Ok (Response 500 ("Unexpected error: " ++ e)))%list
      | Fetched data =>
          let t1 := (t0 ++ [Log "Successfully fetched game data.";
                            LogJson data])%list in
          if negb (truthy data) then
            (t1 ++ [Log "No games available for today."],
             Ok (Response 200 "No games available for today."))%list
          else
            match format_all data with
            | Raise e => (t1, Raise e)
            | Ok messages =>
                let final_message := join separator messages in
                let topic := env_str sns_topic_arn in
                let subject := "NBA Game Updates" in
                let t2 := (t1 ++ [SnsPublish topic final_message subject])%list in
                match sns_publish w topic final_message subject with
                | Published =>
                    (t2 ++ [Log "Message published to SNS successfully."],
                     Ok (Response 200 "Data processed and sent to SNS"))%list
                | ClientError response =>
                    match error_message response with
                    | Raise e => (t2, Raise e)
                    | Ok message =>
                        (t2 ++ [Log ("Error publishing to SNS: " ++ str message)],
                         Ok (Response 500 "Error publishing to SNS"))%list
                    end
                | PublishException e =>
                    (t2 ++ [Log ("Unexpected error while publishing to SNS: " ++ e)],
                     Ok (Response 500 ("Unexpected error: " ++ e)))%list
                end
            end
      end
    end.

(** ** Vocabulary of the specification *)

(** The value that [game.get(key, default)] yields for a record. *)
Definition field (game : list (string * value)) (key : string)
  (default : value) : value :=
  match lookup key game with
  | Some v => v
  | None => default
  end.

Definition game_status game := field game "Status" (VStr "Unknown").
Definition game_away_team game := field game "AwayTeam" (VStr "Unknown").
Definition game_home_team game := field game "HomeTeam" (VStr "Unknown").
Definition game_start_time game := field game "DateTime" (VStr "Unknown").
Definition game_channel game := field game "Channel" (VStr "Unknown").
Definition game_quarters game := field game "Quarters" (VList []).

(** The score string [{away}-{home}] of a record. *)
Definition game_final_score game : string :=
  str (field game "AwayTeamScore" (VStr "N/A")) ++ "-"
    ++ str (field game "HomeTeamScore" (VStr "N/A")).

(** The comprehension over the quarters of a record. *)
Definition quarter_entries game : result (list string) :=
  qs <- iter (game_quarters game) ;;
  comprehension quarter_entry qs.

(** The two lines that open every block. *)
Definition header game : string :=
  "Game Status: " ++ str (game_status game) ++ LF ++
  str (game_away_team game) ++ " vs " ++ str (game_home_team game) ++ LF.

(** A quarter record that carries its number. *)
Definition has_number (q : value) : bool :=
  match q with
  | VDict items =>
      match lookup "Number" items with
      | Some _ => true
      | None => false
      end
  | _ => false
  end.

(** The text of the entry of a quarter record that carries the number [n]. *)
Definition entry_text (n : value) (q : list (string * value)) : string :=
  "Q" ++ str n ++ ": " ++ str (field q "AwayScore" (VStr "N/A")) ++ "-"
      ++ str (field q "HomeScore" (VStr "N/A")).

Definition starts_with (p s : string) : Prop := exists rest, s = p ++ rest.

Definition contains (sub s : string) : Prop :=
  exists before after, s = before ++ sub ++ after.

(** The executable test behind [contains]. *)
Fixpoint occursb (sub s : string) : bool :=
  prefix sub s ||
  match s with
  | EmptyString => false
  | String _ s' => occursb sub s'
  end.

(** Two records that differ at most in their two score fields. *)
Definition same_but_scores (g g' : list (string * value)) : Prop :=
  forall key, key <> "AwayTeamScore" -> key <> "HomeTeamScore" ->
    lookup key g = lookup key g'.

Definition is_urlopen (e : event) : bool :=
  match e with UrlOpen _ => true | _ => false end.

Definition is_publish (e : event) : bool :=
  match e with SnsPublish _ _ _ => true | _ => false end.

Definition http_calls (t : list event) : nat := List.length (filter is_urlopen t).
Definition publish_calls (t : list event) : nat := List.length (filter is_publish t).

(** Both settings are present and not empty, and the SNS client is
    created: the run reaches the fetch. *)
Definition configured (w : world) : Prop :=
  env_falsy (environ w "NBA_API_KEY") = false /\
  env_falsy (environ w "SNS_TOPIC_ARN") = false /\
  boto3_client w "sns" = None.

(** An entry of the quarter line that renders the quarter record [q]. *)
Definition entry_of (q : value) (e : string) : Prop :=
  exists items n,
    q = VDict items /\ lookup "Number" items = Some n /\ e = entry_text n items.

(** ** Sample records and worlds *)

Definition spec_quarters : list value :=
  [VDict [("Number", VInt 1); ("AwayScore", VInt 25); ("HomeScore", VInt 20)]].

(** The record of the scenario of the specification. *)
Definition spec_record : list (string * value) :=
  [("Status", VStr "Final"); ("AwayTeam", VStr "Lakers");
   ("HomeTeam", VStr "Celtics"); ("AwayTeamScore", VInt 101);
   ("HomeTeamScore", VInt 99); ("DateTime", VStr "2024-01-01T19:00");
   ("Channel", VStr "ESPN"); ("Quarters", VList spec_quarters)].

(** The same game, its first quarter lacking the quarter number. *)
Definition unnumbered_record : list (string * value) :=
  [("Status", VStr "Final"); ("AwayTeam", VStr "Lakers");
   ("HomeTeam", VStr "Celtics"); ("AwayTeamScore", VInt 101);
   ("HomeTeamScore", VInt 99); ("DateTime", VStr "2024-01-01T19:00");
   ("Channel", VStr "ESPN");
   ("Quarters", VList [VDict [("AwayScore", VInt 25); ("HomeScore", VInt 20)]])].

(** A finished game for which the feed sends no quarters at all. *)
Definition forfeit_record : list (string * value) :=
  [("Status", VStr "Final"); ("AwayTeam", VStr "Lakers");
   ("HomeTeam", VStr "Celtics"); ("AwayTeamScore", VInt 2);
   ("HomeTeamScore", VInt 0)].

(** A game that has not started, on the first of October. *)
Definition scheduled_record : list (string * value) :=
  [("Status", VStr "Scheduled"); ("AwayTeam", VStr "Lakers");
   ("HomeTeam", VStr "Celtics"); ("AwayTeamScore", VInt 0);
   ("HomeTeamScore", VInt 0); ("DateTime", VStr "2024-10-01T19:00:00");
   ("Channel", VStr "ESPN"); ("Quarters", VList [])].

(** The same game before the feed fills in its scores. *)
Definition scheduled_record_no_scores : list (string * value) :=
  [("Status", VStr "Scheduled"); ("AwayTeam", VStr "Lakers");
   ("HomeTeam", VStr "Celtics"); ("DateTime", VStr "2024-10-01T19:00:00");
   ("Channel", VStr "ESPN"); ("Quarters", VList [])].

Definition sample_environ (key : string) : option string :=
  if String.eqb key "NBA_API_KEY" then Some "k1"
  else if String.eqb key "SNS_TOPIC_ARN" then Some "arn:aws:sns:us-east-1:1:gd"
  else None.

(** A configured run at 2024-01-01T19:00:00Z, with the given answers of
    the game API and of the topic. *)
Definition sample_world (fetch : fetch_result) (pub : publish_result) : world :=
  World sample_environ 1704135600 (fun _ => None)
        (fun _ => fetch) (fun _ _ _ => pub).

(** The same run with one setting replaced. *)
Definition world_with_setting (name : string) (v : option string) : world :=
  World (fun key => if String.eqb key name then v else sample_environ key)
        1704135600 (fun _ => None)
        (fun _ => Fetched (VList [VDict spec_record])) (fun _ _ _ => Published).

(** ** Further vocabulary *)

Definition ends_with (suffix s : string) : Prop := exists start, s = start ++ suffix.

(** What [quarter_entry] raises on an element that carries no number:
    the subscript fails on the key for a record, on the type otherwise. *)
Definition quarter_error (q : value) : exn :=
  match q with
  | VDict _ => KeyError "Number"
  | _ => TypeError
  end.

(** A value that a [for] loop refuses. *)
Definition not_iterable (v : value) : bool :=
  match v with
  | VNone | VBool _ | VInt _ | VFloat _ => true
  | _ => false
  end.

(** Two records that differ at most in the field [name]. *)
Definition same_but (name : string) (g g' : list (string * value)) : Prop :=
  forall key, key <> name -> lookup key g = lookup key g'.

(** A game under way; the feed has no play to report yet. *)
Definition in_progress_record : list (string * value) :=
  [("Status", VStr "InProgress"); ("AwayTeam", VStr "Lakers");
   ("HomeTeam", VStr "Celtics"); ("AwayTeamScore", VInt 54);
   ("HomeTeamScore", VInt 50); ("DateTime", VStr "2024-01-01T19:00");
   ("Channel", VStr "ESPN"); ("Quarters", VList spec_quarters)].

(** A record of which the feed sends the teams only. *)
Definition teams_only_record : list (string * value) :=
  [("AwayTeam", VStr "Lakers"); ("HomeTeam", VStr "Celtics")].

(** A finished game whose scores the feed sends as [null]. *)
Definition null_scores_record : list (string * value) :=
  [("Status", VStr "Final"); ("AwayTeam", VStr "Lakers");
   ("HomeTeam", VStr "Celtics"); ("AwayTeamScore", VNone);
   ("HomeTeamScore", VNone); ("Quarters", VList [])].

(** A game whose quarters the feed sends as [null]. *)
Definition null_quarters_record : list (string * value) :=
  [("Status", VStr "Scheduled"); ("AwayTeam", VStr "Lakers");
   ("HomeTeam", VStr "Celtics"); ("Quarters", VNone)].

(** The error response of a topic that does not exist. *)
Definition not_found_response : value :=
  VDict [("Error", VDict [("Type", VStr "Sender"); ("Code", VStr "NotFound");
                          ("Message", VStr "Topic does not exist")])].

(** An error response whose error element has a code but no message. *)
Definition messageless_response : value :=
  VDict [("Error", VDict [("Code", VStr "InternalError")])].

(** A configured run in which boto3 cannot create its client. *)
Definition world_without_client : world :=
  World sample_environ 1704135600
        (fun _ => Some (OtherError "You must specify a region."))
        (fun _ => Fetched (VList [VDict spec_record])) (fun _ _ _ => Published).

(** A configured run at the given instant. *)
Definition world_at (now : Z) : world :=
  World sample_environ now (fun _ => None)
        (fun _ => Fetched (VList [])) (fun _ _ _ => Published).

(** ** The runtime model on known values *)

Example str_of_values :
  str (VList [VStr "a'b"; VStr "x\y"; VDict [("k", VNone)]; VInt (-12);
              VBool true])
    = String "[" (String DQ ("a'b" ++ String DQ
        ", 'x\\y', {'k': None}, -12, True]")).
Proof. reflexivity. Qed.

Example str_of_missing_score : str (VStr "N/A") ++ "-" ++ str VNone = "N/A-None".
Proof. reflexivity. Qed.

Example central_date_previous_day :
  strftime_ymd (1709269200 - 6 * 3600) = "2024-02-29".
Proof. reflexivity. Qed.

Example central_date_same_day :
  today_date (sample_world JSONDecodeError Published) = "2024-01-01".
Proof. reflexivity. Qed.

Example sample_url :
  api_url (sample_world JSONDecodeError Published)
    = "https://api.sportsdata.io/v3/nba/scores/json/GamesByDate/2024-01-01?key=k1".
Proof. reflexivity. Qed.

(** ** Strings *)

Section Strings.

Lemma str_app_assoc (a b c : string) : (a ++ b) ++ c = a ++ b ++ c.
Proof.
  induction a as [| x a IH]; simpl; [reflexivity | now rewrite IH].
Qed.

Lemma str_app_nil_r (a : string) : a ++ "" = a.
Proof.
  induction a as [| x a IH]; simpl; [reflexivity | now rewrite IH].
Qed.

Lemma contains_intro (before sub after : string) :
  contains sub (before ++ sub ++ after).
Proof. now exists before, after. Qed.

Lemma contains_refl (a : string) : contains a a.
Proof. exists "", "". simpl. now rewrite str_app_nil_r. Qed.

Lemma contains_app_l (x a b : string) : contains x a -> contains x (a ++ b).
Proof.
  intros (p & q & ->). exists p, (q ++ b). now rewrite !str_app_assoc.
Qed.

Lemma contains_app_r (x a b : string) : contains x b -> contains x (a ++ b).
Proof.
  intros (p & q & ->). exists (a ++ p), q. now rewrite !str_app_assoc.
Qed.

Lemma contains_trans (a b c : string) :
  contains a b -> contains b c -> contains a c.
Proof.
  intros (p & q & ->) (p' & q' & ->).
  exists (p' ++ p), (q ++ q').
  now rewrite !str_app_assoc.
Qed.

Lemma prefix_starts_with (p s : string) :
  prefix p s = true <-> starts_with p s.
Proof.
  revert p; induction s as [| y s IH]; intros [| x p]; simpl.
  - split; [intros _; now exists "" | reflexivity].
  - split; [discriminate | intros (r & H); discriminate].
  - split; [intros _; now exists (String y s) | reflexivity].
  - destruct (ascii_dec x y) as [-> | ne].
    + rewrite IH. split; intros (r & H); exists r.
      * simpl; now rewrite H.
      * simpl in H; now injection H.
    + split; [discriminate | intros (r & H)].
      simpl in H; injection H as H1 _; now subst.
Qed.

Lemma occursb_contains (sub s : string) :
  occursb sub s = true <-> contains sub s.
Proof.
  induction s as [| y s IH]; cbn [occursb].
  - rewrite orb_false_r, prefix_starts_with. split.
    + intros (r & H). exists "", r. exact H.
    + intros (p & q & H). destruct p; simpl in H.
      * now exists q.
      * discriminate.
  - rewrite orb_true_iff, prefix_starts_with, IH. split.
    + intros [(r & H) | (p & q & H)].
      * exists "", r. exact H.
      * exists (String y p), q. simpl. now rewrite H.
    + intros (p & q & H). destruct p as [| x p]; simpl in H.
      * left. now exists q.
      * right. injection H as _ H. now exists p, q.
Qed.

End Strings.

(** ** The comprehension *)

Lemma Ok_inj {A : Type} (a b : A) : Ok a = Ok b -> a = b.
Proof. now intros [= ->]. Qed.

Section Comprehension.

Context {A B : Type} (f : A -> result B).

Lemma comprehension_Forall2 (l : list A) (bs : list B) :
  comprehension f l = Ok bs -> Forall2 (fun a b => f a = Ok b) l bs.
Proof.
  revert bs; induction l as [| a l IH]; simpl; intros bs H.
  - injection H as <-. constructor.
  - destruct (f a) as [b |] eqn:Ha; simpl in H; [| discriminate].
    destruct (comprehension f l) as [bs' |]; simpl in H; [| discriminate].
    injection H as <-. constructor; [exact Ha | now apply IH].
Qed.

Lemma comprehension_total (l : list A) :
  Forall (fun a => exists b, f a = Ok b) l ->
  exists bs, comprehension f l = Ok bs.
Proof.
  induction 1 as [| a l (b & Ha) _ (bs & IH)]; simpl.
  - now exists [].
  - rewrite Ha, IH. simpl. now exists (b :: bs).
Qed.

End Comprehension.

(** ** Facts about [format_game_data] *)

Lemma get_record (game : list (string * value)) (key : string)
  (default : value) :
  get (VDict game) key default = Ok (field game key default).
Proof.
  unfold get, field. now destruct (lookup key game).
Qed.

Ltac unfold_fields :=
  unfold header, game_final_score, game_status, game_away_team,
    game_home_team, game_start_time, game_channel, game_quarters in *.

(** Runs the formatter up to its [if], then takes the branch that the
    hypotheses on the status select. *)
Ltac branch :=
  unfold format_game_data, quarter_entries; unfold_fields;
  rewrite !get_record; cbn [bind];
  destruct (iter (field _ "Quarters" _)) as [?qs |]; cbn [bind];
  [| reflexivity];
  destruct (comprehension quarter_entry _); cbn [bind]; [| reflexivity];
  repeat match goal with
         | H : eq_str _ _ = _ |- _ => rewrite H; clear H
         end;
  rewrite ?get_record; cbn [bind]; rewrite ?str_app_assoc; reflexivity.

Section Formatter.

Variable game : list (string * value).

(** The four branches, each as the quarter comprehension followed by the
    text of the branch. *)
Lemma format_final :
  eq_str (game_status game) "Final" = true ->
  format_game_data (VDict game) =
    (entries <- quarter_entries game ;;
     Ok (header game ++
         "Final Score: " ++ game_final_score game ++ LF ++
         "Start Time: " ++ str (game_start_time game) ++ LF ++
         "Channel: " ++ str (game_channel game) ++ LF ++
         "Quarter Scores: " ++ join ", " entries ++ LF)).
Proof.
  intros H. branch.
Qed.

Lemma format_in_progress :
  eq_str (game_status game) "Final" = false ->
  eq_str (game_status game) "InProgress" = true ->
  format_game_data (VDict game) =
    (_ <- quarter_entries game ;;
     Ok (header game ++
         "Current Score: " ++ game_final_score game ++ LF ++
         "Last Play: " ++ str (field game "LastPlay" (VStr "N/A")) ++ LF ++
         "Channel: " ++ str (game_channel game) ++ LF)).
Proof.
  intros H1 H2. branch.
Qed.

Lemma format_scheduled :
  eq_str (game_status game) "Scheduled" = true ->
  format_game_data (VDict game) =
    (_ <- quarter_entries game ;;
     Ok (header game ++
         "Start Time: " ++ str (game_start_time game) ++ LF ++
         "Channel: " ++ str (game_channel game) ++ LF)).
Proof.
  intros H.
  assert (H1 : eq_str (game_status game) "Final" = false).
  { unfold eq_str in *. destruct (game_status game); try reflexivity.
    apply String.eqb_eq in H. now subst. }
  assert (H2 : eq_str (game_status game) "InProgress" = false).
  { unfold eq_str in *. destruct (game_status game); try reflexivity.
    apply String.eqb_eq in H. now subst. }
  branch.
Qed.

Lemma format_other :
  eq_str (game_status game) "Final" = false ->
  eq_str (game_status game) "InProgress" = false ->
  eq_str (game_status game) "Scheduled" = false ->
  format_game_data (VDict game) =
    (_ <- quarter_entries game ;;
     Ok (header game ++ "Details are unavailable at the moment." ++ LF)).
Proof.
  intros H1 H2 H3. branch.
Qed.

(** Whatever the status, the formatter fails exactly when the quarter
    comprehension does, and otherwise opens its block with the header. *)
Lemma format_shape :
  match quarter_entries game with
  | Ok _ => exists rest, format_game_data (VDict game) = Ok (header game ++ rest)
  | Raise e => format_game_data (VDict game) = Raise e
  end.
Proof.
  destruct (eq_str (game_status game) "Final") eqn:H1;
    [rewrite (format_final H1) |
     destruct (eq_str (game_status game) "InProgress") eqn:H2;
     [rewrite (format_in_progress H1 H2) |
      destruct (eq_str (game_status game) "Scheduled") eqn:H3;
      [rewrite (format_scheduled H3) | rewrite (format_other H1 H2 H3)]]];
    destruct (quarter_entries game); cbn [bind];
    try reflexivity; eexists; reflexivity.
Qed.

Lemma quarter_entry_entry_of (q : value) (e : string) :
  quarter_entry q = Ok e -> entry_of q e.
Proof.
  unfold quarter_entry, subscript.
  destruct q as [| | | | | | items]; try discriminate.
  destruct (lookup "Number" items) as [n |] eqn:Hn; [| discriminate].
  rewrite !get_record. cbn [bind]. intros H. injection H as <-.
  now exists items, n.
Qed.

Lemma quarter_entry_numbered (q : value) :
  has_number q = true -> exists e, quarter_entry q = Ok e.
Proof.
  unfold has_number, quarter_entry, subscript.
  destruct q as [| | | | | | items]; try discriminate.
  destruct (lookup "Number" items); [| discriminate].
  intros _. rewrite !get_record. cbn [bind]. eexists; reflexivity.
Qed.

Lemma quarter_entries_listed (qs : list value) (entries : list string) :
  game_quarters game = VList qs ->
  quarter_entries game = Ok entries ->
  Forall2 entry_of qs entries.
Proof.
  unfold quarter_entries. intros ->. cbn [iter bind]. intros H.
  apply comprehension_Forall2 in H.
  induction H; constructor; auto using quarter_entry_entry_of.
Qed.

Lemma quarter_entries_numbered (qs : list value) :
  game_quarters game = VList qs ->
  forallb has_number qs = true ->
  exists entries, quarter_entries game = Ok entries.
Proof.
  unfold quarter_entries. intros -> H. cbn [iter bind].
  apply comprehension_total. rewrite forallb_forall in H.
  apply Forall_forall. intros q Hq. apply quarter_entry_numbered; auto.
Qed.

(** The formatter returns on every record whose quarters are a list of
    records that carry their number. *)
Lemma format_returns (qs : list value) :
  game_quarters game = VList qs ->
  forallb has_number qs = true ->
  exists rest, format_game_data (VDict game) = Ok (header game ++ rest).
Proof.
  intros Hq Hn. destruct (quarter_entries_numbered qs Hq Hn) as (entries & He).
  pose proof format_shape as Hs. now rewrite He in Hs.
Qed.

End Formatter.

Lemma field_same (g g' : list (string * value)) (key : string) (d : value) :
  same_but_scores g g' ->
  key <> "AwayTeamScore" -> key <> "HomeTeamScore" ->
  field g' key d = field g key d.
Proof.
  intros H H1 H2. unfold field. now rewrite (H key H1 H2).
Qed.

(** ** The properties of the formatter *)

(** C1 (the code falls short of the claim).  The claim: the formatter
    never raises, a missing field of a quarter record being replaced by a
    placeholder like any other.  The code reads the quarter number with
    [q['Number']] where its neighbours use [q.get(..., 'N/A')]: on the
    record of the scenario with the number of its first quarter left out,
    the formatter raises [KeyError], and the handler, which formats
    outside of its [try] blocks, lets the exception through. *)
Theorem unnumbered_quarter_raises :
  format_game_data (VDict unnumbered_record) = Raise (KeyError "Number") /\
  snd (lambda_handler
         (sample_world (Fetched (VList [VDict unnumbered_record])) Published))
    = Raise (KeyError "Number").
Proof.
  split; reflexivity.
Qed.

(** C2.  For a record whose status is "Final" and whose quarters are the
    list [qs]: every output of the formatter contains the score string
    [{away}-{home}] and the quarter line made of one entry
    [Q{n}: {away}-{home}] per element of [qs], in the order of [qs],
    joined by ", "; the formatter does return when every quarter carries
    its number; and with no quarters the joined string is empty and the
    formatter returns. *)
Theorem final_output_score_and_quarters
  (game : list (string * value)) (qs : list value) :
  eq_str (game_status game) "Final" = true ->
  game_quarters game = VList qs ->
  (forall output, format_game_data (VDict game) = Ok output ->
     contains (game_final_score game) output /\
     exists entries,
       Forall2 entry_of qs entries /\
       contains ("Quarter Scores: " ++ join ", " entries ++ LF) output) /\
  (forallb has_number qs = true ->
     exists output, format_game_data (VDict game) = Ok output) /\
  (qs = [] ->
     quarter_entries game = Ok [] /\ join ", " [] = "" /\
     exists output, format_game_data (VDict game) = Ok output /\
                    contains ("Quarter Scores: " ++ LF) output).
Proof.
  intros Hs Hq. rewrite (format_final game Hs).
  split; [| split].
  - intros output H.
    destruct (quarter_entries game) as [entries |] eqn:He; cbn [bind] in H;
      [| discriminate].
    apply Ok_inj in H. subst output. split.
    + do 2 apply contains_app_r. apply contains_app_l, contains_refl.
    + exists entries. split.
      * now apply (quarter_entries_listed game).
      * do 10 apply contains_app_r. apply contains_refl.
  - intros Hn. destruct (quarter_entries_numbered game qs Hq Hn) as (es & ->).
    cbn [bind]. eexists; reflexivity.
  - intros ->. unfold quarter_entries. rewrite Hq.
    cbn [iter comprehension bind join]. repeat split.
    eexists; split; [reflexivity |].
    do 10 apply contains_app_r. apply contains_refl.
Qed.

Lemma final_output_score_and_quarters_witness :
  (exists output,
     format_game_data (VDict spec_record) = Ok output /\
     contains (game_final_score spec_record) output) /\
  quarter_entries forfeit_record = Ok [].
Proof.
  split.
  - destruct (final_output_score_and_quarters spec_record spec_quarters
                eq_refl eq_refl) as (H1 & H2 & _).
    destruct (H2 eq_refl) as (output & Ho).
    exists output. split; [exact Ho | apply (H1 output Ho)].
  - destruct (final_output_score_and_quarters forfeit_record []
                eq_refl eq_refl) as (_ & _ & H3).
    exact (proj1 (H3 eq_refl)).
Defined.

(** The scenario of the specification: the block of the sample game
    shows "Final Score: 101-99" and "Q1: 25-20". *)
Example scenario_final_block :
  exists output,
    format_game_data (VDict spec_record) = Ok output /\
    occursb "Final Score: 101-99" output = true /\
    occursb "Q1: 25-20" output = true.
Proof.
  eexists. split; [vm_compute; reflexivity |]. split; reflexivity.
Qed.

(** C9.  Whatever the status of a record (the three named ones or any
    other value), every output of the formatter begins with the line
    "Game Status: {status}" followed by the line
    "{away_team} vs {home_team}"; and the formatter does produce such an
    output on every record whose quarters are a list of records that
    carry their number. *)
Theorem output_begins_with_status_and_matchup (game : list (string * value)) :
  (forall output, format_game_data (VDict game) = Ok output ->
     starts_with (header game) output) /\
  (forall qs, game_quarters game = VList qs ->
     forallb has_number qs = true ->
     exists output, format_game_data (VDict game) = Ok output /\
                    starts_with (header game) output).
Proof.
  split.
  - intros output H. pose proof (format_shape game) as Hs.
    destruct (quarter_entries game).
    + destruct Hs as (rest & Hr). rewrite Hr in H.
      apply Ok_inj in H. subst output. now exists rest.
    + rewrite Hs in H. discriminate.
  - intros qs Hq Hn. destruct (format_returns game qs Hq Hn) as (rest & Hr).
    exists (header game ++ rest). split; [exact Hr | now exists rest].
Qed.

Lemma output_begins_with_status_and_matchup_witness :
  exists output,
    format_game_data (VDict scheduled_record) = Ok output /\
    starts_with (header scheduled_record) output.
Proof.
  exact (proj2 (output_begins_with_status_and_matchup scheduled_record)
               [] eq_refl eq_refl).
Defined.

(** C7 as the specification states it does not hold: the block of a
    scheduled game whose two scores are 0 and whose start time falls on
    the first of October contains the score string "0-0", inside the date
    of its start-time line. *)
Lemma scheduled_output_shows_score_text :
  eq_str (game_status scheduled_record) "Scheduled" = true /\
  exists output,
    format_game_data (VDict scheduled_record) = Ok output /\
    contains (game_final_score scheduled_record) output.
Proof.
  split; [reflexivity |].
  exists ("Game Status: Scheduled" ++ LF ++ "Lakers vs Celtics" ++ LF ++
          "Start Time: 2024-10-01T19:00:00" ++ LF ++ "Channel: ESPN" ++ LF).
  split; [reflexivity |].
  apply occursb_contains. reflexivity.
Qed.

(** C7, amended.  For a record whose status is "Scheduled" the formatter
    yields, unless the quarter comprehension raises, exactly the four
    lines of status, matchup, start time and channel: the two score
    fields are not written, and two such records that differ in their
    score fields only are formatted alike. *)
Theorem scheduled_output_ignores_scores (game : list (string * value)) :
  eq_str (game_status game) "Scheduled" = true ->
  format_game_data (VDict game) =
    (_ <- quarter_entries game ;;
     Ok ("Game Status: " ++ str (game_status game) ++ LF ++
         str (game_away_team game) ++ " vs " ++ str (game_home_team game) ++ LF ++
         "Start Time: " ++ str (game_start_time game) ++ LF ++
         "Channel: " ++ str (game_channel game) ++ LF)) /\
  forall game', same_but_scores game game' ->
    format_game_data (VDict game') = format_game_data (VDict game).
Proof.
  intros H. split.
  - rewrite (format_scheduled game H). unfold header.
    now rewrite !str_app_assoc.
  - intros game' Hs.
    assert (F : forall key d, key <> "AwayTeamScore" -> key <> "HomeTeamScore" ->
                field game' key d = field game key d)
      by (intros; now apply field_same).
    assert (H' : eq_str (game_status game') "Scheduled" = true)
      by (unfold game_status in *; now rewrite F by discriminate).
    rewrite (format_scheduled game H), (format_scheduled game' H').
    unfold quarter_entries, header. unfold_fields.
    now rewrite !F by discriminate.
Qed.

Lemma scheduled_output_ignores_scores_witness :
  format_game_data (VDict scheduled_record_no_scores)
    = format_game_data (VDict scheduled_record).
Proof.
  apply (proj2 (scheduled_output_ignores_scores scheduled_record eq_refl)).
  intros key H1 H2. unfold scheduled_record, scheduled_record_no_scores.
  cbn [lookup].
  destruct (String.eqb_spec "AwayTeamScore" key) as [E | _];
    [congruence |].
  destruct (String.eqb_spec "HomeTeamScore" key) as [E | _];
    [congruence |].
  reflexivity.
Defined.

(** ** The properties of the handler *)

(** Runs a configured handler up to its fetch. *)
Ltac to_fetch H :=
  let Hk := fresh "Hk" in
  let Ht := fresh "Ht" in
  let Hc := fresh "Hc" in
  destruct H as (Hk & Ht & Hc);
  unfold lambda_handler; cbv zeta; rewrite Hk, Ht, Hc; cbn [orb].

Lemma configured_sample (fetch : fetch_result) (pub : publish_result) :
  configured (sample_world fetch pub).
Proof. repeat split. Qed.

(** C3.  When either setting is absent from the environment, the handler
    returns status 500 with the body "Missing environment variables"; its
    only effect is one log line, so it opens no URL and publishes
    nothing. *)
Theorem missing_configuration_short_circuits (w : world) :
  environ w "NBA_API_KEY" = None \/ environ w "SNS_TOPIC_ARN" = None ->
  lambda_handler w =
    ([Log "Error: Missing required environment variables."],
     Ok (Response 500 "Missing environment variables")) /\
  http_calls (fst (lambda_handler w)) = 0 /\
  publish_calls (fst (lambda_handler w)) = 0.
Proof.
  intros H.
  assert (E : env_falsy (environ w "NBA_API_KEY")
              || env_falsy (environ w "SNS_TOPIC_ARN") = true).
  { destruct H as [-> | ->]; cbn [env_falsy]; [reflexivity |].
    apply orb_true_r. }
  unfold lambda_handler. cbv zeta. rewrite E. repeat split.
Qed.

Lemma missing_configuration_short_circuits_witness :
  snd (lambda_handler (world_with_setting "SNS_TOPIC_ARN" None))
    = Ok (Response 500 "Missing environment variables") /\
  http_calls (fst (lambda_handler (world_with_setting "SNS_TOPIC_ARN" None))) = 0.
Proof.
  destruct (missing_configuration_short_circuits
              (world_with_setting "SNS_TOPIC_ARN" None) (or_intror eq_refl))
    as (H1 & H2 & _).
  split; [now rewrite H1 | exact H2].
Defined.

(** C10.  A setting that is present but empty counts as absent: the
    handler returns the same result, status 500 with the body "Missing
    environment variables", after the same single log line, and opens no
    URL. *)
Theorem empty_configuration_short_circuits (w : world) :
  environ w "NBA_API_KEY" = Some "" \/ environ w "SNS_TOPIC_ARN" = Some "" ->
  lambda_handler w =
    ([Log "Error: Missing required environment variables."],
     Ok (Response 500 "Missing environment variables")) /\
  http_calls (fst (lambda_handler w)) = 0 /\
  publish_calls (fst (lambda_handler w)) = 0.
Proof.
  intros H.
  assert (E : env_falsy (environ w "NBA_API_KEY")
              || env_falsy (environ w "SNS_TOPIC_ARN") = true).
  { destruct H as [-> | ->]; cbn [env_falsy String.eqb]; [reflexivity |].
    apply orb_true_r. }
  unfold lambda_handler. cbv zeta. rewrite E. repeat split.
Qed.

Lemma empty_configuration_short_circuits_witness :
  snd (lambda_handler (world_with_setting "NBA_API_KEY" (Some "")))
    = Ok (Response 500 "Missing environment variables") /\
  http_calls (fst (lambda_handler (world_with_setting "NBA_API_KEY" (Some "")))) = 0.
Proof.
  destruct (empty_configuration_short_circuits
              (world_with_setting "NBA_API_KEY" (Some "")) (or_introl eq_refl))
    as (H1 & H2 & _).
  split; [now rewrite H1 | exact H2].
Defined.

(** C4.  When the fetch yields the empty array, the handler returns
    status 200 with the body "No games available for today." and
    publishes nothing. *)
Theorem no_games_is_success (w : world) :
  configured w ->
  urlopen_json w (api_url w) = Fetched (VList []) ->
  snd (lambda_handler w) = Ok (Response 200 "No games available for today.") /\
  publish_calls (fst (lambda_handler w)) = 0.
Proof.
  intros H Hf. to_fetch H. rewrite Hf. cbn [truthy negb]. split; reflexivity.
Qed.

Lemma no_games_is_success_witness :
  snd (lambda_handler (sample_world (Fetched (VList [])) Published))
    = Ok (Response 200 "No games available for today.") /\
  publish_calls
    (fst (lambda_handler (sample_world (Fetched (VList [])) Published))) = 0.
Proof.
  apply no_games_is_success; [apply configured_sample | reflexivity].
Defined.

(** C5.  When the fetch ends with an HTTP error, the handler returns the
    code of that error as its status and the body "HTTP Error: " followed
    by the reason of the error; when it ends with a URL (transport) error,
    the handler returns status 500 and the body "URL Error: " followed by
    the reason.  Neither run publishes. *)
Theorem fetch_errors_are_reported (w : world) :
  configured w ->
  (forall code reason,
     urlopen_json w (api_url w) = HTTPError code reason ->
     snd (lambda_handler w) = Ok (Response code ("HTTP Error: " ++ reason)) /\
     contains "HTTP Error" ("HTTP Error: " ++ reason) /\
     contains reason ("HTTP Error: " ++ reason) /\
     publish_calls (fst (lambda_handler w)) = 0) /\
  (forall reason,
     urlopen_json w (api_url w) = URLError reason ->
     snd (lambda_handler w) = Ok (Response 500 ("URL Error: " ++ reason)) /\
     contains reason ("URL Error: " ++ reason) /\
     publish_calls (fst (lambda_handler w)) = 0).
Proof.
  intros H. split.
  - intros code reason Hf. to_fetch H. rewrite Hf. repeat split.
    + now exists "", (": " ++ reason).
    + apply contains_app_r, contains_refl.
  - intros reason Hf. to_fetch H. rewrite Hf. repeat split.
    apply contains_app_r, contains_refl.
Qed.

Lemma fetch_errors_are_reported_witness :
  snd (lambda_handler (sample_world (HTTPError 404 "Not Found") Published))
    = Ok (Response 404 "HTTP Error: Not Found").
Proof.
  exact (proj1 (proj1 (fetch_errors_are_reported
                         (sample_world (HTTPError 404 "Not Found") Published)
                         (configured_sample _ _))
                      404%Z "Not Found" eq_refl)).
Defined.



(** C8 (the code falls short of the claim).  The claim: a delivery
    failure of the topic is caught and reported with status 500 and the
    fixed body "Error publishing to SNS", and no publish failure leaves
    the handler.  The [except] clause of the client error builds its log
    line from [e.response['Error']['Message']] before it returns: on an
    error response whose error element has no message, that subscript
    raises [KeyError] inside the clause, and the exception leaves the
    handler after the publish call instead of the 500 result. *)
Theorem client_error_without_message_escapes :
  snd (lambda_handler
         (sample_world (Fetched (VList [VDict spec_record]))
                       (ClientError messageless_response)))
    = Raise (KeyError "Message") /\
  publish_calls
    (fst (lambda_handler
            (sample_world (Fetched (VList [VDict spec_record]))
                          (ClientError messageless_response)))) = 1.
Proof.
  split; reflexivity.
Qed.

(** The scenario of the specification: the sample game is published and
    the handler returns status 200. *)
Example scenario_published :
  snd (lambda_handler
         (sample_world (Fetched (VList [VDict spec_record])) Published))
    = Ok (Response 200 "Data processed and sent to SNS").
Proof. reflexivity. Qed.

(** * Further properties of the code *)

(** ** More on [format_game_data] *)

Section Comprehension_failures.

Context {A B : Type} (f : A -> result B).

Lemma comprehension_first_failure (good : list A) (bad : A) (rest : list A)
  (e : exn) :
  (exists bs, comprehension f good = Ok bs) ->
  f bad = Raise e ->
  comprehension f (good ++ bad :: rest)%list = Raise e.
Proof.
  intros (bs & Hg) Hb. revert bs Hg.
  induction good as [| a good IH]; cbn [app comprehension]; intros bs Hg.
  - now rewrite Hb.
  - destruct (f a); cbn [bind] in *; [| discriminate].
    destruct (comprehension f good) as [bs' |]; cbn [bind] in *;
      [| discriminate].
    now rewrite (IH bs' eq_refl).
Qed.

Lemma comprehension_some_failure (l : list A) (a : A) (e : exn) :
  In a l -> f a = Raise e -> exists e', comprehension f l = Raise e'.
Proof.
  induction l as [| x l IH]; [intros [] |].
  intros [-> | Hin] Ha; cbn [comprehension].
  - rewrite Ha. now exists e.
  - destruct (f x); cbn [bind]; [| eexists; reflexivity].
    destruct (IH Hin Ha) as (e' & ->). now exists e'.
Qed.

Lemma comprehension_image (l : list A) (bs : list B) (a : A) :
  comprehension f l = Ok bs -> In a l -> exists b, f a = Ok b /\ In b bs.
Proof.
  intros H. apply comprehension_Forall2 in H.
  induction H as [| x b l bs Hx _ IH]; [intros [] |].
  intros [<- | Hin].
  - exists b. split; [exact Hx | now left].
  - destruct (IH Hin) as (b' & Hb & Hi). exists b'. split; [exact Hb | now right].
Qed.

End Comprehension_failures.

Lemma entry_of_has_number (q : value) (e : string) :
  entry_of q e -> has_number q = true.
Proof.
  intros (items & n & -> & Hn & _). cbn [has_number]. now rewrite Hn.
Qed.

Lemma quarter_entry_unnumbered (q : value) :
  has_number q = false -> quarter_entry q = Raise (quarter_error q).
Proof.
  unfold has_number, quarter_entry, subscript, quarter_error.
  destruct q as [| | | | | | items]; try reflexivity.
  destruct (lookup "Number" items); [discriminate | reflexivity].
Qed.

Lemma format_fails_with_quarters (game : list (string * value)) (e : exn) :
  quarter_entries game = Raise e -> format_game_data (VDict game) = Raise e.
Proof.
  intros H. pose proof (format_shape game) as Hs. now rewrite H in Hs.
Qed.

Lemma eq_str_true (v : value) (lit : string) :
  eq_str v lit = true -> v = VStr lit.
Proof.
  destruct v; try discriminate. cbn [eq_str]. intros H.
  apply String.eqb_eq in H. now subst.
Qed.

Lemma eq_str_false (v : value) (lit : string) :
  v <> VStr lit -> eq_str v lit = false.
Proof.
  intros H. destruct (eq_str v lit) eqn:E; [| reflexivity].
  apply eq_str_true in E. contradiction.
Qed.

Lemma ends_with_app (x a b : string) : ends_with x b -> ends_with x (a ++ b).
Proof.
  intros (p & ->). exists (a ++ p). now rewrite str_app_assoc.
Qed.

Lemma ends_with_refl (x : string) : ends_with x x.
Proof. now exists "". Qed.

(** X1.  For a record whose quarters are a list, the formatter returns
    exactly when every quarter is a record that carries its number,
    whatever the status. *)
Theorem formatter_returns_iff_numbered
  (game : list (string * value)) (qs : list value) :
  game_quarters game = VList qs ->
  (exists output, format_game_data (VDict game) = Ok output) <->
  forallb has_number qs = true.
Proof.
  intros Hq. split.
  - intros (output & Ho). pose proof (format_shape game) as Hs.
    destruct (quarter_entries game) as [entries | e] eqn:He.
    + apply forallb_forall. intros q Hin.
      pose proof (quarter_entries_listed game qs entries Hq He) as F.
      clear - F Hin. induction F as [| x y l l' Hxy _ IH]; [destruct Hin |].
      destruct Hin as [<- | Hin]; [now apply (entry_of_has_number x y) | auto].
    + rewrite Hs in Ho. discriminate.
  - intros Hn. destruct (format_returns game qs Hq Hn) as (rest & Hr).
    now exists (header game ++ rest).
Qed.

Lemma formatter_returns_iff_numbered_witness :
  exists output, format_game_data (VDict in_progress_record) = Ok output.
Proof.
  apply (proj2 (formatter_returns_iff_numbered in_progress_record spec_quarters
                  eq_refl)).
  reflexivity.
Defined.

(** X2.  The first quarter that carries no number decides the failure of
    the formatter: [KeyError] on "Number" when it is a record, [TypeError]
    when it is anything else; the quarters after it are not looked at. *)
Theorem first_unnumbered_quarter_decides
  (game : list (string * value)) (good : list value) (bad : value)
  (rest : list value) :
  game_quarters game = VList (good ++ bad :: rest)%list ->
  forallb has_number good = true ->
  has_number bad = false ->
  format_game_data (VDict game) = Raise (quarter_error bad).
Proof.
  intros Hq Hg Hb. apply format_fails_with_quarters.
  unfold quarter_entries. rewrite Hq. cbn [iter bind].
  apply comprehension_first_failure.
  - apply comprehension_total, Forall_forall. intros q Hin.
    apply quarter_entry_numbered. rewrite forallb_forall in Hg. auto.
  - now apply quarter_entry_unnumbered.
Qed.

Lemma first_unnumbered_quarter_decides_witness :
  format_game_data
    (VDict [("Status", VStr "Scheduled");
            ("Quarters", VList (spec_quarters ++ [VInt 2; VDict []])%list)])
    = Raise TypeError.
Proof.
  exact (first_unnumbered_quarter_decides
           [("Status", VStr "Scheduled");
            ("Quarters", VList (spec_quarters ++ [VInt 2; VDict []])%list)]
           spec_quarters (VInt 2) [VDict []] eq_refl eq_refl eq_refl).
Defined.

(** X3.  A record whose "Quarters" value cannot be iterated ([null], a
    boolean or a number) makes the formatter raise [TypeError] in every
    branch, also in those that print no quarters: the placeholder list
    stands in for an absent key only. *)
Theorem non_iterable_quarters_raise (game : list (string * value)) :
  not_iterable (game_quarters game) = true ->
  format_game_data (VDict game) = Raise TypeError.
Proof.
  intros H. apply format_fails_with_quarters. unfold quarter_entries.
  destruct (game_quarters game); try discriminate; reflexivity.
Qed.

Lemma non_iterable_quarters_raise_witness :
  format_game_data (VDict null_quarters_record) = Raise TypeError.
Proof.
  exact (non_iterable_quarters_raise null_quarters_record eq_refl).
Defined.

Lemma field_same_but (name : string) (g g' : list (string * value))
  (key : string) (d : value) :
  same_but name g g' -> key <> name -> field g' key d = field g key d.
Proof.
  intros H Hk. unfold field. now rewrite (H key Hk).
Qed.

Lemma contains_line (label text rest : string) :
  contains (label ++ text ++ LF) (label ++ text ++ LF ++ rest).
Proof.
  exists "", rest. cbn [append]. now rewrite !str_app_assoc.
Qed.

(** X4.  For a record whose status is "InProgress" the formatter yields,
    unless the quarter comprehension raises, exactly the five lines of
    status, matchup, current score, last play and channel, the last play
    reading "N/A" when the record has none; the start time is not written:
    two such records that differ in "DateTime" only are formatted alike. *)
Theorem in_progress_output (game : list (string * value)) :
  eq_str (game_status game) "InProgress" = true ->
  format_game_data (VDict game) =
    (_ <- quarter_entries game ;;
     Ok ("Game Status: " ++ str (game_status game) ++ LF ++
         str (game_away_team game) ++ " vs " ++ str (game_home_team game) ++ LF ++
         "Current Score: " ++ game_final_score game ++ LF ++
         "Last Play: " ++ str (field game "LastPlay" (VStr "N/A")) ++ LF ++
         "Channel: " ++ str (game_channel game) ++ LF)) /\
  forall game', same_but "DateTime" game game' ->
    format_game_data (VDict game') = format_game_data (VDict game).
Proof.
  intros H.
  assert (N : forall g, eq_str (game_status g) "InProgress" = true ->
                        eq_str (game_status g) "Final" = false).
  { intros g Hg. apply eq_str_true in Hg. now rewrite Hg. }
  split.
  - rewrite (format_in_progress game (N game H) H). unfold header.
    now rewrite !str_app_assoc.
  - intros game' Hs.
    assert (F : forall key d, key <> "DateTime" ->
                field game' key d = field game key d)
      by (intros; now apply (field_same_but "DateTime")).
    assert (H' : eq_str (game_status game') "InProgress" = true)
      by (unfold game_status in *; now rewrite F by discriminate).
    rewrite (format_in_progress game (N game H) H),
            (format_in_progress game' (N game' H') H').
    unfold quarter_entries, header. unfold_fields.
    now rewrite !F by discriminate.
Qed.

Lemma in_progress_output_witness :
  format_game_data (VDict in_progress_record)
    = Ok ("Game Status: InProgress" ++ LF ++ "Lakers vs Celtics" ++ LF ++
          "Current Score: 54-50" ++ LF ++ "Last Play: N/A" ++ LF ++
          "Channel: ESPN" ++ LF).
Proof.
  rewrite (proj1 (in_progress_output in_progress_record eq_refl)).
  reflexivity.
Defined.

(** X5.  The status is matched as an exact string: a record whose status
    is none of "Final", "InProgress" and "Scheduled" (another spelling,
    or a value that is not a string) gets, unless the quarter
    comprehension raises, the three lines of status, matchup and "Details
    are unavailable at the moment.". *)
Theorem other_status_output (game : list (string * value)) :
  game_status game <> VStr "Final" ->
  game_status game <> VStr "InProgress" ->
  game_status game <> VStr "Scheduled" ->
  format_game_data (VDict game) =
    (_ <- quarter_entries game ;;
     Ok ("Game Status: " ++ str (game_status game) ++ LF ++
         str (game_away_team game) ++ " vs " ++ str (game_home_team game) ++ LF ++
         "Details are unavailable at the moment." ++ LF)).
Proof.
  intros H1 H2 H3.
  rewrite (format_other game (eq_str_false _ _ H1) (eq_str_false _ _ H2)
                        (eq_str_false _ _ H3)).
  unfold header. now rewrite !str_app_assoc.
Qed.

Lemma other_status_output_witness :
  format_game_data
    (VDict [("Status", VStr "final"); ("AwayTeam", VStr "Lakers");
            ("HomeTeam", VStr "Celtics"); ("AwayTeamScore", VInt 101);
            ("HomeTeamScore", VInt 99)])
    = Ok ("Game Status: final" ++ LF ++ "Lakers vs Celtics" ++ LF ++
          "Details are unavailable at the moment." ++ LF).
Proof.
  rewrite other_status_output; [reflexivity | discriminate ..].
Defined.

(** X6.  A record without a "Status" key is formatted with the status
    "Unknown" and so always gets the "Details are unavailable at the
    moment." block, whatever its other fields hold. *)
Theorem missing_status_output (game : list (string * value)) :
  lookup "Status" game = None ->
  format_game_data (VDict game) =
    (_ <- quarter_entries game ;;
     Ok ("Game Status: Unknown" ++ LF ++
         str (game_away_team game) ++ " vs " ++ str (game_home_team game) ++ LF ++
         "Details are unavailable at the moment." ++ LF)).
Proof.
  intros H.
  assert (E : game_status game = VStr "Unknown")
    by (unfold game_status, field; now rewrite H).
  rewrite (format_other game); try (rewrite E; reflexivity).
  unfold header. rewrite E. cbn [str]. now rewrite !str_app_assoc.
Qed.

Lemma missing_status_output_witness :
  format_game_data (VDict teams_only_record)
    = Ok ("Game Status: Unknown" ++ LF ++ "Lakers vs Celtics" ++ LF ++
          "Details are unavailable at the moment." ++ LF).
Proof.
  rewrite (missing_status_output teams_only_record eq_refl). reflexivity.
Defined.

(** X7.  The placeholder "N/A" stands in for a score whose key is absent
    only: in the block of a finished game the score line reads
    "Final Score: N/A-N/A" when both score keys are absent, and
    "Final Score: None-None" when both are present with the value
    [null]. *)
Theorem final_score_line_without_scores
  (game : list (string * value)) (output : string) :
  eq_str (game_status game) "Final" = true ->
  format_game_data (VDict game) = Ok output ->
  (lookup "AwayTeamScore" game = None -> lookup "HomeTeamScore" game = None ->
   contains ("Final Score: N/A-N/A" ++ LF) output) /\
  (lookup "AwayTeamScore" game = Some VNone ->
   lookup "HomeTeamScore" game = Some VNone ->
   contains ("Final Score: None-None" ++ LF) output).
Proof.
  intros Hs Ho. rewrite (format_final game Hs) in Ho.
  destruct (quarter_entries game); cbn [bind] in Ho; [| discriminate].
  apply Ok_inj in Ho. subst output.
  split; intros Ha Hh.
  - assert (E : game_final_score game = "N/A-N/A")
      by (unfold game_final_score, field; now rewrite Ha, Hh).
    rewrite E. apply contains_app_r.
    apply (contains_line "Final Score: " "N/A-N/A").
  - assert (E : game_final_score game = "None-None")
      by (unfold game_final_score, field; now rewrite Ha, Hh).
    rewrite E. apply contains_app_r.
    apply (contains_line "Final Score: " "None-None").
Qed.

Lemma final_score_line_without_scores_witness :
  contains ("Final Score: None-None" ++ LF)
    ("Game Status: Final" ++ LF ++ "Lakers vs Celtics" ++ LF ++
     "Final Score: None-None" ++ LF ++ "Start Time: Unknown" ++ LF ++
     "Channel: Unknown" ++ LF ++ "Quarter Scores: " ++ LF).
Proof.
  exact (proj2 (final_score_line_without_scores null_scores_record _
                  eq_refl eq_refl) eq_refl eq_refl).
Defined.

(** X8.  Every block that the formatter returns, in each of its four
    branches, ends with a line feed. *)
Theorem output_ends_with_line_feed
  (game : list (string * value)) (output : string) :
  format_game_data (VDict game) = Ok output -> ends_with LF output.
Proof.
  destruct (eq_str (game_status game) "Final") eqn:H1;
    [rewrite (format_final game H1) |
     destruct (eq_str (game_status game) "InProgress") eqn:H2;
     [rewrite (format_in_progress game H1 H2) |
      destruct (eq_str (game_status game) "Scheduled") eqn:H3;
      [rewrite (format_scheduled game H3) |
       rewrite (format_other game H1 H2 H3)]]];
    (destruct (quarter_entries game); cbn [bind]; [| discriminate]);
    intros H; apply Ok_inj in H; subst output;
    repeat (first [apply ends_with_refl | apply ends_with_app]).
Qed.

Lemma output_ends_with_line_feed_witness :
  ends_with LF
    ("Game Status: Unknown" ++ LF ++ "Lakers vs Celtics" ++ LF ++
     "Details are unavailable at the moment." ++ LF).
Proof.
  exact (output_ends_with_line_feed teams_only_record _ eq_refl).
Defined.

(** ** More on [lambda_handler] *)

(** Splits a run of the handler along its tests, in program order; the
    goal must hold every mention of the run. *)
Ltac handler_paths w :=
  unfold lambda_handler; cbv zeta;
  destruct (env_falsy (environ w "NBA_API_KEY")) eqn:Hk;
  destruct (env_falsy (environ w "SNS_TOPIC_ARN")) eqn:Ht;
  cbn [orb];
  try match goal with
      | |- context [boto3_client w "sns"] =>
          destruct (boto3_client w "sns") as [failure |] eqn:Hc;
          [| destruct (urlopen_json w (api_url w))
               as [data | code reason | reason | | description] eqn:Hf;
             [destruct (truthy data) eqn:Hd; cbn [negb];
              [destruct (format_all data) as [messages | raised] eqn:Hm;
               [destruct (sns_publish w (env_str (environ w "SNS_TOPIC_ARN"))
                            (join separator messages) "NBA Game Updates")
                  as [| response | description] eqn:Hp;
                [| destruct (error_message response)
                     as [message | raised] eqn:He |] |] |] | ..]]
      end;
  cbn [fst snd app].

Lemma join_contains (sep : string) (parts : list string) (p : string) :
  In p parts -> contains p (join sep parts).
Proof.
  induction parts as [| x parts IH]; [intros [] |].
  intros [-> | Hin].
  - destruct parts; cbn [join]; [apply contains_refl |].
    apply contains_app_l, contains_refl.
  - destruct parts as [| y parts]; [destruct Hin |].
    change (join sep (x :: y :: parts))
      with (x ++ sep ++ join sep (y :: parts)).
    do 2 apply contains_app_r. now apply IH.
Qed.

Lemma env_not_falsy (v : option string) :
  env_falsy v = false -> exists k, v = Some k /\ k <> "" /\ env_str v = k.
Proof.
  destruct v as [k |]; [| discriminate]. cbn [env_falsy env_str].
  intros H. apply String.eqb_neq in H. now exists k.
Qed.

(** X9.  Any decoded value that Python counts as false ([null], [false],
    0, 0.0, the empty string, the empty array, the empty object) is
    reported like an empty game list: status 200, "No games available for
    today.", and nothing is published. *)
Theorem falsy_data_is_no_games (w : world) (data : value) :
  configured w ->
  urlopen_json w (api_url w) = Fetched data ->
  truthy data = false ->
  snd (lambda_handler w) = Ok (Response 200 "No games available for today.") /\
  publish_calls (fst (lambda_handler w)) = 0.
Proof.
  intros H Hf Hd. to_fetch H. rewrite Hf, Hd. split; reflexivity.
Qed.

Lemma falsy_data_is_no_games_witness :
  snd (lambda_handler (sample_world (Fetched (VDict [])) Published))
    = Ok (Response 200 "No games available for today.").
Proof.
  exact (proj1 (falsy_data_is_no_games
                  (sample_world (Fetched (VDict [])) Published) (VDict [])
                  (configured_sample _ _) eq_refl eq_refl)).
Defined.

(** X10.  A decoded value that counts as true but cannot be iterated (a
    number other than zero, [true]) makes the handler raise [TypeError]:
    the comprehension over the games stands outside the [try] blocks.
    Nothing is published. *)
Theorem non_iterable_data_raises (w : world) (data : value) :
  configured w ->
  urlopen_json w (api_url w) = Fetched data ->
  truthy data = true ->
  not_iterable data = true ->
  snd (lambda_handler w) = Raise TypeError /\
  publish_calls (fst (lambda_handler w)) = 0.
Proof.
  intros H Hf Hd Hn. to_fetch H. rewrite Hf, Hd. cbn [negb].
  assert (E : format_all data = Raise TypeError)
    by (destruct data; try discriminate; reflexivity).
  rewrite E. split; reflexivity.
Qed.

Lemma non_iterable_data_raises_witness :
  snd (lambda_handler (sample_world (Fetched (VInt 7)) Published))
    = Raise TypeError.
Proof.
  exact (proj1 (non_iterable_data_raises
                  (sample_world (Fetched (VInt 7)) Published) (VInt 7)
                  (configured_sample _ _) eq_refl eq_refl eq_refl)).
Defined.

(** X11.  When the response decodes to a JSON object that is not empty,
    the handler iterates over its keys, calls the formatter on the first
    key, a string, and raises [AttributeError]; nothing is published. *)
Theorem object_response_raises
  (w : world) (key : string) (v : value) (items : list (string * value)) :
  configured w ->
  urlopen_json w (api_url w) = Fetched (VDict ((key, v) :: items)) ->
  snd (lambda_handler w) = Raise AttributeError /\
  publish_calls (fst (lambda_handler w)) = 0.
Proof.
  intros H Hf. to_fetch H. rewrite Hf. split; reflexivity.
Qed.

Lemma object_response_raises_witness :
  snd (lambda_handler
         (sample_world (Fetched (VDict [("message", VStr "Quota exceeded")]))
                       Published))
    = Raise AttributeError.
Proof.
  exact (proj1 (object_response_raises
                  (sample_world
                     (Fetched (VDict [("message", VStr "Quota exceeded")]))
                     Published)
                  "message" (VStr "Quota exceeded") []
                  (configured_sample _ _) eq_refl)).
Defined.

(** X12.  Any other exception of the fetch (the last [except] clause) is
    reported with status 500 and the body "Unexpected error: " followed
    by the description of the exception; nothing is published. *)
Theorem unexpected_fetch_error_is_reported (w : world) (description : string) :
  configured w ->
  urlopen_json w (api_url w) = FetchException description ->
  snd (lambda_handler w)
    = Ok (Response 500 ("Unexpected error: " ++ description)) /\
  publish_calls (fst (lambda_handler w)) = 0.
Proof.
  intros H Hf. to_fetch H. rewrite Hf. split; reflexivity.
Qed.

Lemma unexpected_fetch_error_is_reported_witness :
  snd (lambda_handler
         (sample_world (FetchException "'utf-8' codec can't decode byte 0xff")
                       Published))
    = Ok (Response 500 "Unexpected error: 'utf-8' codec can't decode byte 0xff").
Proof.
  exact (proj1 (unexpected_fetch_error_is_reported
                  (sample_world
                     (FetchException "'utf-8' codec can't decode byte 0xff")
                     Published)
                  _ (configured_sample _ _) eq_refl)).
Defined.

(** X13.  One game that the formatter refuses loses the whole
    notification: when the formatter raises on any element of the decoded
    list, the handler raises as well and publishes nothing, not even the
    blocks of the other games. *)
Theorem one_bad_game_loses_all
  (w : world) (games : list value) (game : value) (e : exn) :
  configured w ->
  urlopen_json w (api_url w) = Fetched (VList games) ->
  In game games ->
  format_game_data game = Raise e ->
  (exists e', snd (lambda_handler w) = Raise e') /\
  publish_calls (fst (lambda_handler w)) = 0.
Proof.
  intros H Hf Hin He. to_fetch H. rewrite Hf.
  assert (Hd : truthy (VList games) = true)
    by (destruct games; [destruct Hin | reflexivity]).
  rewrite Hd. cbn [negb].
  destruct (comprehension_some_failure format_game_data games game e Hin He)
    as (e' & E).
  unfold format_all. cbn [iter bind]. rewrite E.
  split; [now exists e' | reflexivity].
Qed.

Lemma one_bad_game_loses_all_witness :
  publish_calls
    (fst (lambda_handler
            (sample_world
               (Fetched (VList [VDict spec_record; VDict null_quarters_record]))
               Published))) = 0.
Proof.
  exact (proj2 (one_bad_game_loses_all
                  (sample_world
                     (Fetched (VList [VDict spec_record;
                                      VDict null_quarters_record]))
                     Published)
                  [VDict spec_record; VDict null_quarters_record]
                  (VDict null_quarters_record) TypeError
                  (configured_sample _ _) eq_refl
                  (or_intror (or_introl eq_refl)) eq_refl)).
Defined.

(** X14.  No run of the handler opens more than one URL or publishes more
    than once, and none publishes without having fetched: there is no
    retry. *)
Theorem at_most_one_fetch_and_publish (w : world) :
  http_calls (fst (lambda_handler w)) <= 1 /\
  publish_calls (fst (lambda_handler w)) <= 1 /\
  publish_calls (fst (lambda_handler w)) <= http_calls (fst (lambda_handler w)).
Proof.
  handler_paths w; cbn; lia.
Qed.

(** X15.  The handler publishes exactly when both settings are set, the
    client is created, and the fetched data is not empty and is formatted
    without an exception; what it then publishes is the blocks joined by
    the separator, to the configured topic, under the subject "NBA Game
    Updates". *)
Theorem publish_event_characterised
  (w : world) (TopicArn Message Subject : string) :
  In (SnsPublish TopicArn Message Subject) (fst (lambda_handler w)) <->
  configured w /\
  exists data messages,
    urlopen_json w (api_url w) = Fetched data /\
    truthy data = true /\
    format_all data = Ok messages /\
    TopicArn = env_str (environ w "SNS_TOPIC_ARN") /\
    Message = join separator messages /\
    Subject = "NBA Game Updates".
Proof.
  unfold configured. split.
  - handler_paths w; cbn [In]; intros H;
      repeat (destruct H as [H | H]; try discriminate H);
      try contradiction.
    all: injection H as <- <- <-;
         (split; [repeat split; congruence |]);
         exists data, messages; repeat split; assumption.
  - intros ((Hk' & Ht' & Hc') & data' & messages' & Hf' & Hd' & Hm' & Hx).
    destruct Hx as (-> & -> & ->).
    handler_paths w; try congruence.
    all: try (assert (data' = data) by congruence; subst data'; try congruence).
    all: assert (messages' = messages) by congruence; subst messages'.
    all: cbn [In]; auto 10.
Qed.

Lemma publish_event_characterised_witness :
  exists message,
    In (SnsPublish "arn:aws:sns:us-east-1:1:gd" message "NBA Game Updates")
       (fst (lambda_handler
               (sample_world (Fetched (VList [VDict spec_record])) Published))).
Proof.
  eexists.
  apply (proj2 (publish_event_characterised
                  (sample_world (Fetched (VList [VDict spec_record])) Published)
                  _ _ _)).
  split; [apply configured_sample |].
  exists (VList [VDict spec_record]).
  eexists. repeat split; reflexivity.
Defined.

(** X16.  The handler opens a URL exactly when both settings are set and
    the client is created, and the only URL it opens is the fixed address
    of the games of the day, with the date of the run and the API key as
    the "key" parameter. *)
Theorem url_event_characterised (w : world) (url : string) :
  In (UrlOpen url) (fst (lambda_handler w)) <->
  configured w /\
  exists api_key,
    environ w "NBA_API_KEY" = Some api_key /\ api_key <> "" /\
    url = "https://api.sportsdata.io/v3/nba/scores/json/GamesByDate/"
            ++ today_date w ++ "?key=" ++ api_key.
Proof.
  unfold configured. split.
  - handler_paths w; cbn [In]; intros H;
      repeat (destruct H as [H | H]; try discriminate H);
      try contradiction.
    all: injection H as <-;
         destruct (env_not_falsy _ Hk) as (k & Ek & Nk & Sk);
         (split; [repeat split; congruence |]);
         exists k; repeat split; try assumption;
         unfold api_url; now rewrite Sk.
  - intros ((Hk' & Ht' & Hc') & k & Ek & Nk & ->).
    assert (U : "https://api.sportsdata.io/v3/nba/scores/json/GamesByDate/"
                  ++ today_date w ++ "?key=" ++ k = api_url w)
      by (unfold api_url; now rewrite Ek).
    rewrite U.
    handler_paths w; try congruence; cbn [In]; auto 10.
Qed.

Lemma url_event_characterised_witness :
  In (UrlOpen
        "https://api.sportsdata.io/v3/nba/scores/json/GamesByDate/2024-01-01?key=k1")
     (fst (lambda_handler (sample_world JSONDecodeError Published))).
Proof.
  apply (proj2 (url_event_characterised
                  (sample_world JSONDecodeError Published) _)).
  split; [apply configured_sample |].
  exists "k1". repeat split. discriminate.
Defined.

(** X17.  The status code that the handler returns is 200, 500 or the
    code of the HTTP error that the fetch ended with. *)
Theorem status_code_is_200_500_or_upstream (w : world) (r : response) :
  snd (lambda_handler w) = Ok r ->
  statusCode r = 200%Z \/ statusCode r = 500%Z \/
  exists reason, urlopen_json w (api_url w) = HTTPError (statusCode r) reason.
Proof.
  handler_paths w; intros H; try discriminate H;
    apply Ok_inj in H; subst r; cbn [statusCode]; auto.
  right; right. now exists reason.
Qed.

Lemma status_code_is_200_500_or_upstream_witness :
  (404 = 200 \/ 404 = 500 \/
   exists reason,
     urlopen_json (sample_world (HTTPError 404 "Not Found") Published)
       (api_url (sample_world (HTTPError 404 "Not Found") Published))
     = HTTPError 404 reason)%Z.
Proof.
  exact (status_code_is_200_500_or_upstream
           (sample_world (HTTPError 404 "Not Found") Published)
           (Response 404 "HTTP Error: Not Found") eq_refl).
Defined.

(** X18.  The body "Data processed and sent to SNS" is returned only
    with status 200 and only after the one publish call of the run has
    succeeded. *)
Theorem success_body_means_published (w : world) (r : response) :
  snd (lambda_handler w) = Ok r ->
  body r = "Data processed and sent to SNS" ->
  statusCode r = 200%Z /\
  publish_calls (fst (lambda_handler w)) = 1 /\
  exists data messages,
    urlopen_json w (api_url w) = Fetched data /\
    format_all data = Ok messages /\
    sns_publish w (env_str (environ w "SNS_TOPIC_ARN"))
      (join separator messages) "NBA Game Updates" = Published.
Proof.
  handler_paths w; intros H; try discriminate H;
    apply Ok_inj in H; subst r; cbn [body statusCode]; intros Hb;
    try discriminate Hb.
  repeat split. now exists data, messages.
Qed.

Lemma success_body_means_published_witness :
  publish_calls
    (fst (lambda_handler
            (sample_world (Fetched (VList [VDict spec_record])) Published))) = 1.
Proof.
  exact (proj1 (proj2 (success_body_means_published
                         (sample_world (Fetched (VList [VDict spec_record]))
                                       Published)
                         (Response 200 "Data processed and sent to SNS")
                         eq_refl eq_refl))).
Defined.

(** X19.  An exception leaves the handler in three cases only.  Before
    anything is published: boto3 fails to create the client, or the
    comprehension over the fetched games raises.  After the one publish
    call: the topic answered with a client error and the subscripts
    [e.response['Error']['Message']] of the log line raise. *)
Theorem handler_raises_in_three_places (w : world) (e : exn) :
  snd (lambda_handler w) = Raise e ->
  (publish_calls (fst (lambda_handler w)) = 0 /\
   (boto3_client w "sns" = Some e \/
    exists data,
      urlopen_json w (api_url w) = Fetched data /\
      truthy data = true /\
      format_all data = Raise e)) \/
  (publish_calls (fst (lambda_handler w)) = 1 /\
   exists data messages response,
     urlopen_json w (api_url w) = Fetched data /\
     truthy data = true /\
     format_all data = Ok messages /\
     sns_publish w (env_str (environ w "SNS_TOPIC_ARN"))
       (join separator messages) "NBA Game Updates" = ClientError response /\
     error_message response = Raise e).
Proof.
  handler_paths w; intros H; try discriminate H; injection H as <-.
  - left. split; [reflexivity | now left].
  - right. split; [reflexivity |]. now exists data, messages, response.
  - left. split; [reflexivity | right; now exists data].
Qed.

Lemma handler_raises_in_three_places_witness :
  publish_calls (fst (lambda_handler world_without_client)) = 0 /\
  publish_calls
    (fst (lambda_handler
            (sample_world (Fetched (VList [VDict spec_record]))
                          (ClientError messageless_response)))) = 1.
Proof.
  split.
  - destruct (handler_raises_in_three_places world_without_client
                (OtherError "You must specify a region.") eq_refl)
      as [(H & _) | (H & _)]; [exact H | cbv in H; discriminate H].
  - destruct (handler_raises_in_three_places
                (sample_world (Fetched (VList [VDict spec_record]))
                              (ClientError messageless_response))
                (KeyError "Message") eq_refl)
      as [(H & _) | (H & _)]; [cbv in H; discriminate H | exact H].
Defined.

(** X20.  When the fetched data is a list of games and the handler
    publishes, the published message contains the block of every game of
    the list. *)
Theorem published_message_holds_every_block
  (w : world) (games : list value) (TopicArn Message Subject : string) :
  urlopen_json w (api_url w) = Fetched (VList games) ->
  In (SnsPublish TopicArn Message Subject) (fst (lambda_handler w)) ->
  forall game, In game games ->
    exists block, format_game_data game = Ok block /\ contains block Message.
Proof.
  handler_paths w; cbn [In]; intros Hg H;
    repeat (destruct H as [H | H]; try discriminate H);
    try contradiction.
  all: injection H as <- <- <-; injection Hg as ->;
       intros game Hin; unfold format_all in Hm; cbn [iter bind] in Hm;
       destruct (comprehension_image format_game_data games messages game
                   Hm Hin) as (block & Hb & Hi);
       exists block; split; [exact Hb | now apply join_contains].
Qed.

Lemma published_message_holds_every_block_witness :
  exists block,
    format_game_data (VDict in_progress_record) = Ok block /\
    contains block
      (join separator
         ["Game Status: Final" ++ LF ++ "Lakers vs Celtics" ++ LF ++
          "Final Score: 101-99" ++ LF ++ "Start Time: 2024-01-01T19:00" ++ LF ++
          "Channel: ESPN" ++ LF ++ "Quarter Scores: Q1: 25-20" ++ LF;
          "Game Status: InProgress" ++ LF ++ "Lakers vs Celtics" ++ LF ++
          "Current Score: 54-50" ++ LF ++ "Last Play: N/A" ++ LF ++
          "Channel: ESPN" ++ LF]).
Proof.
  apply (published_message_holds_every_block
           (sample_world
              (Fetched (VList [VDict spec_record; VDict in_progress_record]))
              Published)
           [VDict spec_record; VDict in_progress_record]
           "arn:aws:sns:us-east-1:1:gd" _ "NBA Game Updates" eq_refl).
  - cbn. auto 10.
  - cbn. auto.
Defined.

(** X21.  The date of the fetch is the UTC date moved back by six hours:
    during the first six hours of a UTC day the handler asks for the
    games of the day before, from 06:00 UTC on for those of the UTC day
    itself. *)
Theorem date_is_utc_minus_six_hours (w : world) :
  ((utc_now w mod 86400 < 21600)%Z ->
   today_date w = strftime_ymd (utc_now w - 86400)) /\
  ((21600 <= utc_now w mod 86400)%Z ->
   today_date w = strftime_ymd (utc_now w)).
Proof.
  unfold today_date, strftime_ymd. split; intros H.
  - replace ((utc_now w - 6 * 3600) / 86400)%Z
      with ((utc_now w - 86400) / 86400)%Z; [reflexivity |].
    Z.to_euclidean_division_equations; lia.
  - replace ((utc_now w - 6 * 3600) / 86400)%Z
      with (utc_now w / 86400)%Z; [reflexivity |].
    Z.to_euclidean_division_equations; lia.
Qed.

Lemma date_is_utc_minus_six_hours_witness :
  today_date (world_at 1704085200) = "2023-12-31" /\
  today_date (world_at 1704088800) = "2024-01-01".
Proof.
  split.
  - rewrite (proj1 (date_is_utc_minus_six_hours (world_at 1704085200)));
      reflexivity.
  - rewrite (proj2 (date_is_utc_minus_six_hours (world_at 1704088800)));
      [reflexivity | cbn; lia].
Defined.

(** X22.  What follows the publish call.  When the handler reaches it,
    it calls the topic exactly once, with the joined blocks and the
    subject "NBA Game Updates"; it returns status 200 after a successful
    publish, status 500 with "Unexpected error: " and the description
    after an exception that is not a client error, and, after a client
    error whose response holds ['Error']['Message'], status 500 with the
    fixed body "Error publishing to SNS"; after a client error whose
    response lacks that entry, the exception of the subscript leaves the
    handler. *)
Theorem publish_outcomes
  (w : world) (data : value) (messages : list string) :
  configured w ->
  urlopen_json w (api_url w) = Fetched data ->
  truthy data = true ->
  format_all data = Ok messages ->
  let topic := env_str (environ w "SNS_TOPIC_ARN") in
  let final_message := join separator messages in
  publish_calls (fst (lambda_handler w)) = 1 /\
  In (SnsPublish topic final_message "NBA Game Updates") (fst (lambda_handler w)) /\
  snd (lambda_handler w) =
    match sns_publish w topic final_message "NBA Game Updates" with
    | Published => Ok (Response 200 "Data processed and sent to SNS")
    | ClientError response =>
        match error_message response with
        | Ok _ => Ok (Response 500 "Error publishing to SNS")
        | Raise e => Raise e
        end
    | PublishException e => Ok (Response 500 ("Unexpected error: " ++ e))
    end.
Proof.
  intros H Hf Hd Hm topic final_message. subst topic final_message.
  to_fetch H. rewrite Hf, Hd, Hm. cbn [negb].
  destruct (sns_publish w _ _ _) as [| response |];
    [| destruct (error_message response) |];
    cbn [fst snd]; repeat split; cbn [app In]; auto 10.
Qed.

Lemma publish_outcomes_witness :
  snd (lambda_handler
         (sample_world (Fetched (VList [VDict spec_record]))
                       (ClientError not_found_response)))
    = Ok (Response 500 "Error publishing to SNS").
Proof.
  destruct (publish_outcomes
              (sample_world (Fetched (VList [VDict spec_record]))
                            (ClientError not_found_response))
              (VList [VDict spec_record])
              (match format_all (VList [VDict spec_record]) with
               | Ok ms => ms
               | Raise _ => []
               end)
              (configured_sample _ _) eq_refl eq_refl eq_refl)
    as (_ & _ & H).
  exact H.
Defined.
